(** * plan/optimizer.go: the optimizer entry point, statement preparation
      and the optimizer error table

    A shallow embedding of [Optimize], [PrepareStmt], the optimizer error
    codes and the package [init] of [plan/optimizer.go].

    [Optimize] and [PrepareStmt] only orchestrate: every pass they drive
    ([InferType], [logicOptimize], the plan builder, [PredicatePushDown],
    [PruneColumnsAndResolveIndices], [convert2PhysicalPlan], [PushLimit],
    [Refine], [Preprocess], [Validate], ...) lives in other files of the
    package.  Those passes are therefore taken as the fields of one
    interface, [Collaborators]; each is a function on an abstract [World]
    (the statement tree, the plan nodes and everything else the passes
    mutate in place).  What the orchestration itself does is made
    observable in two ways:

    - every call to a collaborator is logged, with its arguments and the
      error it returned, in the list of [Event]s of the run;
    - every allocation the orchestration performs ([make], [new], [&T{}])
      takes the next free address of an allocation log. *)

From Stdlib Require Import List Bool ZArith Lia String Sorted.
From stdpp Require Import base gmap.
Import ListNotations.

Set Implicit Arguments.

(** ** Allocation *)

(** An address handed out by [make], [new] or a composite literal [&T{}]. *)
Definition Loc := nat.

(** What was allocated at an address, by the expression that allocated it. *)
Inductive AllocKind :=
| KColMapper      (* make of the map from ast.ColumnNameExpr pointers to int *)
| KIdAllocator    (* new(idAllocator) *)
| KPlanBuilder.   (* &planBuilder{...} *)

Section Optimizer.

(** ** The types the file imports or takes from the rest of the package *)

Variables
  (Ctx             (* context.Context *)
   Node            (* ast.Node *)
   SubQueryBuilder
   InfoSchema      (* infoschema.InfoSchema *)
   Plan LogicalPlan PhysicalPlan
   Schema          (* expression.Schema, the result of GetSchema *)
   Expression      (* the predicates handed to PredicatePushDown *)
   requiredProperty
   Limit
   Error           (* a non-nil Go error *)
   World : Type).

(** [*physicalPlanInfo], the second result of [convert2PhysicalPlan]; the
    entry point reads its field [p] only. *)
Record physicalPlanInfo := { info_p : PhysicalPlan }.

(** [planBuilder] as the composite literal of [Optimize] fills it; the
    fields it leaves at their zero value ([err] among them) are not
    stored here: [build] reports [builder.err] as its second result. *)
Record planBuilder := {
  pb_sb     : SubQueryBuilder;
  pb_ctx    : Ctx;
  pb_is     : InfoSchema;
  colMapper : Loc;
  allocator : Loc
}.

(** A Go [error] value: [None] is [nil]. *)
Definition error := option Error.

(** A Go [Plan] result: [None] is the literal [nil] of [return nil, err]. *)
Definition PlanResult := option Plan.

(** ** The collaborators *)

(** The passes and helpers [Optimize] and [PrepareStmt] call.  Results the
    callers discard with [_] are left out of the result types.

    [UseNewPlanner] is the package-level toggle; no statement of this
    file assigns it, so it is one value for the length of a call. *)
Class Collaborators := {
  UseNewPlanner : bool;
  (* the type assertion of node to a pointer to ast.SelectStmt *)
  isSelectStmt : Node -> bool;
  (* logic, ok := p.(LogicalPlan) *)
  asLogicalPlan : Plan -> option LogicalPlan;
  (* a PhysicalPlan assigned to a variable of interface type Plan *)
  PhysicalPlan_as_Plan : PhysicalPlan -> Plan;
  (* errors.Trace, on a non-nil error *)
  Trace : Error -> Error;
  InferType : Node -> World -> error * World;
  logicOptimize : Ctx -> Node -> World -> error * World;
  (* p := builder.build(node), then builder.err *)
  build : planBuilder -> Node -> World -> (Plan * error) * World;
  (* _, logic, err = logic.PredicatePushDown(predicates) *)
  PredicatePushDown :
    LogicalPlan -> list Expression -> World -> (LogicalPlan * error) * World;
  (* p.GetSchema() *)
  GetSchema : Plan -> World -> Schema;
  (* _, err = logic.PruneColumnsAndResolveIndices(schema) *)
  PruneColumnsAndResolveIndices :
    LogicalPlan -> Schema -> World -> error * World;
  (* _, res, _, err := logic.convert2PhysicalPlan(prop) *)
  convert2PhysicalPlan :
    LogicalPlan -> option requiredProperty -> World ->
    (physicalPlanInfo * error) * World;
  (* res.p.PushLimit(limit) *)
  PushLimit : PhysicalPlan -> option Limit -> World -> PhysicalPlan * World;
  Refine : Plan -> World -> error * World;
  (* ast.SetFlag(node) *)
  SetFlag : Node -> World -> World;
  Preprocess : Node -> InfoSchema -> Ctx -> World -> error * World;
  (* Validate(node, inPrepare) *)
  Validate : Node -> bool -> World -> error * World
}.

Context {C : Collaborators}.

(** ** Observable calls *)

Inductive Call :=
| CallInferType (node : Node)
| CallLogicOptimize (ctx : Ctx) (node : Node)
| CallBuild (at_ : Loc) (builder : planBuilder) (node : Node)
| CallPredicatePushDown (recv : LogicalPlan) (predicates : list Expression)
| CallPruneColumnsAndResolveIndices (recv : LogicalPlan) (schema : Schema)
| CallConvert2PhysicalPlan (recv : LogicalPlan) (prop : option requiredProperty)
| CallPushLimit (recv : PhysicalPlan) (limit : option Limit)
| CallDebugf (p : Plan)   (* log.Debugf("[PLAN] %s", ToString(p)) *)
| CallRefine (p : Plan)
| CallSetFlag (node : Node)
| CallPreprocess (node : Node) (ischema : InfoSchema) (ctx : Ctx)
| CallValidate (node : Node) (inPrepare : bool).

(** A call together with the error it returned ([None] as well for the
    calls that return no error at all). *)
Definition Event : Type := Call * error.

(** ** The monad of the orchestration: a store, and the log of the run *)

Record Store := mkStore {
  world  : World;
  allocs : list AllocKind   (* address [i] holds what [nth i allocs] says *)
}.

Definition M (A : Type) : Type := Store -> (A * Store) * list Event.

Definition ret {A} (a : A) : M A := fun s => (a, s, []).

Definition bind {A B} (m : M A) (k : A -> M B) : M B :=
  fun s =>
    let '(a, s1, t1) := m s in
    let '(b, s2, t2) := k a s1 in
    (b, s2, t1 ++ t2).

Notation "'let!' x ':=' m 'in' k" := (bind m (fun x => k))
  (at level 10, x pattern, m at level 100, k at level 200, only parsing).

(** A logged call of a collaborator [f]; [errOf] picks the error out of
    what [f] returned. *)
Definition call {A} (c : Call) (errOf : A -> error) (f : World -> A * World)
  : M A :=
  fun s =>
    let '(a, w) := f (world s) in
    (a, mkStore w (allocs s), [(c, errOf a)]).

Definition no_error {A} (_ : A) : error := None.

(** A read of the world that calls no pass (a field or getter access). *)
Definition gets {A} (f : World -> A) : M A := fun s => (f (world s), s, []).

(** An allocation: the next free address, never handed out before. *)
Definition alloc (k : AllocKind) : M Loc :=
  fun s => (length (allocs s), mkStore (world s) (allocs s ++ [k]), []).

(** ** Optimize *)

(** Lines 49-64: the body of [if logic, ok := p.(LogicalPlan);
    UseNewPlanner && ok]. *)
Definition newPipeline (p : Plan) (logic : LogicalPlan)
  : M (PlanResult * error) :=
  let! (logic, err) := call (CallPredicatePushDown logic []) snd
                         (PredicatePushDown logic []) in
  match err with
  | Some e => ret (None, Some (Trace e))
  | None =>
    let! schema := gets (GetSchema p) in
    let! err := call (CallPruneColumnsAndResolveIndices logic schema) id
                  (PruneColumnsAndResolveIndices logic schema) in
    match err with
    | Some e => ret (None, Some (Trace e))
    | None =>
      let! (res, err) := call (CallConvert2PhysicalPlan logic None) snd
                           (convert2PhysicalPlan logic None) in
      match err with
      | Some e => ret (None, Some (Trace e))
      | None =>
        let! q := call (CallPushLimit (info_p res) None) no_error
                    (PushLimit (info_p res) None) in
        let p := PhysicalPlan_as_Plan q in
        let! u := call (CallDebugf p) no_error (fun w => (tt, w)) in
        ret (Some p, None)
      end
    end
  end.

(** Lines 66-70: the legacy tail. *)
Definition legacyRefine (p : Plan) : M (PlanResult * error) :=
  let! err := call (CallRefine p) id (Refine p) in
  match err with
  | Some e => ret (None, Some (Trace e))
  | None => ret (Some p, None)
  end.

Definition Optimize (ctx : Ctx) (node : Node) (sb : SubQueryBuilder)
    (ischema : InfoSchema) : M (PlanResult * error) :=
  let! err := call (CallInferType node) id (InferType node) in
  match err with
  | Some e => ret (None, Some (Trace e))
  | None =>
    let! err := (if negb (isSelectStmt node) || negb UseNewPlanner
                 then call (CallLogicOptimize ctx node) id
                        (logicOptimize ctx node)
                 else ret None) in
    match err with
    | Some e => ret (None, Some (Trace e))
    | None =>
      let! cm := alloc KColMapper in
      let! al := alloc KIdAllocator in
      let builder := {| pb_sb := sb; pb_ctx := ctx; pb_is := ischema;
                        colMapper := cm; allocator := al |} in
      let! bp := alloc KPlanBuilder in
      let! (p, err) := call (CallBuild bp builder node) snd
                         (build builder node) in
      match err with
      | Some e => ret (None, Some (Trace e))
      | None =>
        match asLogicalPlan p, UseNewPlanner with
        | Some logic, true => newPipeline p logic
        | _, _ => legacyRefine p
        end
      end
    end
  end.

(** ** PrepareStmt *)

Definition PrepareStmt (ischema : InfoSchema) (ctx : Ctx) (node : Node)
  : M error :=
  let! u := call (CallSetFlag node) no_error (fun w => (tt, SetFlag node w)) in
  let! err := call (CallPreprocess node ischema ctx) id
                (Preprocess node ischema ctx) in
  match err with
  | Some e => ret (Some (Trace e))
  | None =>
    let! err := call (CallValidate node true) id (Validate node true) in
    match err with
    | Some e => ret (Some (Trace e))
    | None => ret None
    end
  end.

(** ** Reading the log of a run *)

(** The steps of [Optimize] that can fail. *)
Definition fallible_step (c : Call) : bool :=
  match c with
  | CallInferType _ | CallLogicOptimize _ _ | CallBuild _ _ _
  | CallPredicatePushDown _ _ | CallPruneColumnsAndResolveIndices _ _
  | CallConvert2PhysicalPlan _ _ | CallRefine _ => true
  | _ => false
  end.

Definition succeeded (ev : Event) : Prop := snd ev = None.

Definition calls (t : list Event) : list Call := map fst t.

Definition is_logicOptimize (c : Call) : bool :=
  match c with CallLogicOptimize _ _ => true | _ => false end.

Definition is_build (c : Call) : bool :=
  match c with CallBuild _ _ _ => true | _ => false end.

Definition is_PredicatePushDown (c : Call) : bool :=
  match c with CallPredicatePushDown _ _ => true | _ => false end.

Definition is_PruneColumnsAndResolveIndices (c : Call) : bool :=
  match c with CallPruneColumnsAndResolveIndices _ _ => true | _ => false end.

Definition is_convert2PhysicalPlan (c : Call) : bool :=
  match c with CallConvert2PhysicalPlan _ _ => true | _ => false end.

Definition is_PushLimit (c : Call) : bool :=
  match c with CallPushLimit _ _ => true | _ => false end.

Definition is_Refine (c : Call) : bool :=
  match c with CallRefine _ => true | _ => false end.

(** The calls of the new-pipeline phase, lines 50-62. *)
Definition is_new_pipeline (c : Call) : bool :=
  is_PredicatePushDown c || is_PruneColumnsAndResolveIndices c
  || is_convert2PhysicalPlan c || is_PushLimit c.

(** [invoked P t]: some call of the run [t] satisfies [P]. *)
Definition invoked (P : Call -> bool) (t : list Event) : bool :=
  existsb P (calls t).

(** The condition of line 33. *)
Definition runs_logicOptimize (node : Node) : bool :=
  negb (isSelectStmt node) || negb UseNewPlanner.

(** Whether the type assertion of line 48 succeeds. *)
Definition implementsLogicalPlan (p : Plan) : bool :=
  match asLogicalPlan p with Some _ => true | None => false end.

(** The builder of a call entered with [n] addresses already handed out,
    and the address of the builder itself. *)
Definition builder_at (n : nat) (ctx : Ctx) (sb : SubQueryBuilder)
    (ischema : InfoSchema) : planBuilder :=
  {| pb_sb := sb; pb_ctx := ctx; pb_is := ischema;
     colMapper := n; allocator := S n |}.

Definition builder_loc (n : nat) : Loc := S (S n).

(** The log of a run up to and including a successful [build]. *)
Definition front_log (n : nat) (ctx : Ctx) (node : Node)
    (sb : SubQueryBuilder) (ischema : InfoSchema) : list Event :=
  (CallInferType node, None)
  :: (if runs_logicOptimize node
      then [(CallLogicOptimize ctx node, None)] else [])
  ++ [(CallBuild (builder_loc n) (builder_at n ctx sb ischema) node, None)].

(** The addresses a call of the builder exposes: the builder, its
    [colMapper] and its [allocator]. *)
Definition builder_locs (c : Call) : list Loc :=
  match c with
  | CallBuild bp b _ => [colMapper b; allocator b; bp]
  | _ => []
  end.

Definition locs_of (t : list Event) : list Loc :=
  flat_map builder_locs (calls t).

Definition is_Debugf (c : Call) : bool :=
  match c with CallDebugf _ => true | _ => false end.

(** The place of a call in the text of [Optimize]: the line order of the
    calls, [Refine] (line 66) standing where the new-pipeline phase it
    replaces begins.  The calls of [PrepareStmt] have no place in it. *)
Definition stage (c : Call) : nat :=
  match c with
  | CallInferType _ => 1
  | CallLogicOptimize _ _ => 2
  | CallBuild _ _ _ => 3
  | CallPredicatePushDown _ _ => 4
  | CallPruneColumnsAndResolveIndices _ _ => 5
  | CallConvert2PhysicalPlan _ _ => 6
  | CallPushLimit _ _ => 7
  | CallDebugf _ => 8
  | CallRefine _ => 4
  | CallSetFlag _ | CallPreprocess _ _ _ | CallValidate _ _ => 0
  end.

(** The same collaborators with the package-level toggle set to [b]. *)
Definition with_toggle (b : bool) (c : Collaborators) : Collaborators :=
  let 'Build_Collaborators _ f1 f2 f3 f4 f5 f6 f7 f8 f9 f10 f11 f12 f13
         f14 f15 f16 := c in
  Build_Collaborators b f1 f2 f3 f4 f5 f6 f7 f8 f9 f10 f11 f12 f13
    f14 f15 f16.

End Optimizer.

(** The collaborators are read off the instance in scope. *)
Arguments UseNewPlanner {_ _ _ _ _ _ _ _ _ _ _ _ _ _}.
Arguments isSelectStmt {_ _ _ _ _ _ _ _ _ _ _ _ _ _}.
Arguments asLogicalPlan {_ _ _ _ _ _ _ _ _ _ _ _ _ _}.
Arguments PhysicalPlan_as_Plan {_ _ _ _ _ _ _ _ _ _ _ _ _ _}.
Arguments Trace {_ _ _ _ _ _ _ _ _ _ _ _ _ _}.
Arguments InferType {_ _ _ _ _ _ _ _ _ _ _ _ _ _}.
Arguments logicOptimize {_ _ _ _ _ _ _ _ _ _ _ _ _ _}.
Arguments build {_ _ _ _ _ _ _ _ _ _ _ _ _ _}.
Arguments PredicatePushDown {_ _ _ _ _ _ _ _ _ _ _ _ _ _}.
Arguments GetSchema {_ _ _ _ _ _ _ _ _ _ _ _ _ _}.
Arguments PruneColumnsAndResolveIndices {_ _ _ _ _ _ _ _ _ _ _ _ _ _}.
Arguments convert2PhysicalPlan {_ _ _ _ _ _ _ _ _ _ _ _ _ _}.
Arguments PushLimit {_ _ _ _ _ _ _ _ _ _ _ _ _ _}.
Arguments Refine {_ _ _ _ _ _ _ _ _ _ _ _ _ _}.
Arguments SetFlag {_ _ _ _ _ _ _ _ _ _ _ _ _ _}.
Arguments Preprocess {_ _ _ _ _ _ _ _ _ _ _ _ _ _}.
Arguments Validate {_ _ _ _ _ _ _ _ _ _ _ _ _ _}.
(** The type parameters of a call are those of the run it belongs to. *)
Arguments CallInferType {_ _ _ _ _ _ _ _ _ _ _}.
Arguments CallLogicOptimize {_ _ _ _ _ _ _ _ _ _ _}.
Arguments CallBuild {_ _ _ _ _ _ _ _ _ _ _}.
Arguments CallPredicatePushDown {_ _ _ _ _ _ _ _ _ _ _}.
Arguments CallPruneColumnsAndResolveIndices {_ _ _ _ _ _ _ _ _ _ _}.
Arguments CallConvert2PhysicalPlan {_ _ _ _ _ _ _ _ _ _ _}.
Arguments CallPushLimit {_ _ _ _ _ _ _ _ _ _ _}.
Arguments CallDebugf {_ _ _ _ _ _ _ _ _ _ _}.
Arguments CallRefine {_ _ _ _ _ _ _ _ _ _ _}.
Arguments CallSetFlag {_ _ _ _ _ _ _ _ _ _ _}.
Arguments CallPreprocess {_ _ _ _ _ _ _ _ _ _ _}.
Arguments CallValidate {_ _ _ _ _ _ _ _ _ _ _}.
Arguments fallible_step {_ _ _ _ _ _ _ _ _ _ _} c.
Arguments is_logicOptimize {_ _ _ _ _ _ _ _ _ _ _} c.
Arguments is_build {_ _ _ _ _ _ _ _ _ _ _} c.
Arguments is_PredicatePushDown {_ _ _ _ _ _ _ _ _ _ _} c.
Arguments is_PruneColumnsAndResolveIndices {_ _ _ _ _ _ _ _ _ _ _} c.
Arguments is_convert2PhysicalPlan {_ _ _ _ _ _ _ _ _ _ _} c.
Arguments is_PushLimit {_ _ _ _ _ _ _ _ _ _ _} c.
Arguments is_Refine {_ _ _ _ _ _ _ _ _ _ _} c.
Arguments is_new_pipeline {_ _ _ _ _ _ _ _ _ _ _} c.
Arguments builder_locs {_ _ _ _ _ _ _ _ _ _ _} c.
Arguments is_Debugf {_ _ _ _ _ _ _ _ _ _ _} c.
Arguments stage {_ _ _ _ _ _ _ _ _ _ _} c.
Arguments succeeded {_ _ _ _ _ _ _ _ _ _ _ _} ev.
Arguments calls {_ _ _ _ _ _ _ _ _ _ _ _} t.
Arguments invoked {_ _ _ _ _ _ _ _ _ _ _ _} P t.
Arguments locs_of {_ _ _ _ _ _ _ _ _ _ _ _} t.

(** * The optimizer error codes and the table [init] installs *)

(** The package [mysql]: the four error numbers the file uses (Go
    [uint16] constants declared in that package). *)
Module mysql.
Class Codes := {
  ErrOperandColumns      : Z;
  ErrParse               : Z;
  ErrInvalidGroupFuncUse : Z;
  ErrIllegalReference    : Z
}.
End mysql.

(** The package [terror]: error classes and codes are Go [int]s. *)
Module terror.
Class Classes := { ClassOptimizer : Z }.

(** What [class.New(code, message)] builds. *)
Record Error := {
  class   : Z;
  code    : Z;
  message : string
}.

Definition New (cls : Z) (c : Z) (msg : string) : Error :=
  {| class := cls; code := c; message := msg |}.
End terror.

Section ErrorCodes.

Local Open Scope Z_scope.

Context {T : terror.Classes} {K : mysql.Codes}.

Definition CodeOneColumn           : Z := 1.
Definition CodeSameColumns         : Z := 2.
Definition CodeMultiWildCard       : Z := 3.
Definition CodeUnsupported         : Z := 4.
Definition CodeInvalidGroupFuncUse : Z := 5.
Definition CodeIllegalReference    : Z := 6.

Definition ErrOneColumn :=
  terror.New terror.ClassOptimizer CodeOneColumn
    "Operand should contain 1 column(s)".
Definition ErrSameColumns :=
  terror.New terror.ClassOptimizer CodeSameColumns
    "Operands should contain same columns".
Definition ErrMultiWildCard :=
  terror.New terror.ClassOptimizer CodeMultiWildCard
    "wildcard field exist more than once".
Definition ErrUnSupported :=
  terror.New terror.ClassOptimizer CodeUnsupported "unsupported".
Definition ErrInvalidGroupFuncUse :=
  terror.New terror.ClassOptimizer CodeInvalidGroupFuncUse
    "Invalid use of group function".
Definition ErrIllegalReference :=
  terror.New terror.ClassOptimizer CodeIllegalReference "Illegal reference".

(** The six optimizer base errors, in the order of their declaration. *)
Definition optimizerErrors : list terror.Error :=
  [ ErrOneColumn; ErrSameColumns; ErrMultiWildCard; ErrUnSupported;
    ErrInvalidGroupFuncUse; ErrIllegalReference ].

(** The map literal of [init]. *)
Definition mySQLErrCodes : gmap Z Z :=
  list_to_map
    [ (CodeOneColumn,           mysql.ErrOperandColumns);
      (CodeSameColumns,         mysql.ErrOperandColumns);
      (CodeMultiWildCard,       mysql.ErrParse);
      (CodeInvalidGroupFuncUse, mysql.ErrInvalidGroupFuncUse);
      (CodeIllegalReference,    mysql.ErrIllegalReference) ].

(** [init]: the assignment to [terror.ErrClassToMySQLCodes], the table of
    the whole process, given as it stands when [init] runs. *)
Definition init (ErrClassToMySQLCodes : gmap Z (gmap Z Z))
  : gmap Z (gmap Z Z) :=
  <[ terror.ClassOptimizer := mySQLErrCodes ]> ErrClassToMySQLCodes.

(** The entry of an error in a table of the process: the MySQL code
    recorded for its class and code, if any. *)
Definition entry (tbl : gmap Z (gmap Z Z)) (e : terror.Error) : option Z :=
  match tbl !! terror.class e with
  | Some codes => codes !! terror.code e
  | None => None
  end.

End ErrorCodes.

(** * A small instance

    Concrete collaborators on which the definitions above run: statements
    and plans are numbers, the world counts the passes that have run.
    Statement [0] is the one SELECT; the builder turns statement [n] into
    plan [2 * n + k], where [k] is [0] or [1]; even plans implement
    [LogicalPlan].  The fallible passes are numbered from [1]; pass [bad]
    fails with error [7], and no pass fails when [bad] is [0]. *)
Module Demo.

Definition outcome (bad pass : nat) : option nat :=
  if Nat.eqb bad pass then Some 7 else None.

Definition collaborators (toggle : bool) (k bad : nat)
  : Collaborators unit nat unit unit nat nat nat nat nat unit nat nat nat :=
  {| UseNewPlanner := toggle;
     isSelectStmt node := Nat.eqb node 0;
     asLogicalPlan p := if Nat.even p then Some p else None;
     PhysicalPlan_as_Plan q := q;
     Trace e := S e;
     InferType node w := (outcome bad 1, S w);
     logicOptimize ctx node w := (outcome bad 2, S w);
     build builder node w := ((2 * node + k, outcome bad 3), S w);
     PredicatePushDown logic predicates w :=
       ((logic + 10, outcome bad 4), S w);
     GetSchema p w := p + w;
     PruneColumnsAndResolveIndices logic schema w := (outcome bad 5, S w);
     convert2PhysicalPlan logic prop w :=
       (({| info_p := logic + 20 |}, outcome bad 6), S w);
     PushLimit q limit w := (q + 30, S w);
     Refine p w := (outcome bad 7, S w);
     SetFlag node w := S w;
     Preprocess node ischema ctx w := (outcome bad 8, S w);
     Validate node inPrepare w := (outcome bad 9, S w) |}.

(** A store in which two addresses are already taken. *)
Definition store0 : Store nat :=
  {| world := 0; allocs := [KPlanBuilder; KColMapper] |}.

Definition classes : terror.Classes := {| terror.ClassOptimizer := 10 |}.

(** The numbers MySQL gives the four errors. *)
Definition codes : mysql.Codes :=
  {| mysql.ErrOperandColumns := 1241;
     mysql.ErrParse := 1064;
     mysql.ErrInvalidGroupFuncUse := 1111;
     mysql.ErrIllegalReference := 1247 |}.

End Demo.

(** * Properties of the entry point *)

Section OptimizerFacts.

Context {Ctx Node SubQueryBuilder InfoSchema Plan LogicalPlan PhysicalPlan
         Schema Expression requiredProperty Limit Error World : Type}
        {C : Collaborators Ctx Node SubQueryBuilder InfoSchema Plan
               LogicalPlan PhysicalPlan Schema Expression requiredProperty
               Limit Error World}.

(** ** Symbolic execution of the orchestration *)

Ltac unfold_run :=
  unfold Optimize, PrepareStmt, newPipeline, legacyRefine,
         bind, call, ret, alloc, gets, no_error, id in *.

(** Case analysis on the innermost scrutinee: the next collaborator the
    run consults. *)
Ltac case_step :=
  match goal with
  | |- context [match ?x with _ => _ end] =>
      lazymatch x with
      | context [match _ with _ => _ end] => fail
      | _ => destruct x eqn:?
      end
  end;
  cbn beta iota zeta delta [fst snd app world allocs length] in *.

(** Splits a log whose spine is known into its last event and the rest. *)
Ltac last_event :=
  match goal with
  | |- exists t0 c e, ?t = _ /\ _ =>
      exists (removelast t); cbn [removelast];
      do 2 eexists; split; [ reflexivity | ]
  end.

Ltac red_run := cbn beta iota zeta delta [world allocs fst snd app].

(** Names the outcome of lines 48-70, whichever branch is taken. *)
Ltac destruct_tail p :=
  (destruct (asLogicalPlan p) as [?logic|]; [ destruct UseNewPlanner | ]);
  match goal with
  | |- context [newPipeline ?a ?b ?c] =>
      destruct (newPipeline a b c) as [[? ?] ?]
  | |- context [legacyRefine ?a ?c] =>
      destruct (legacyRefine a c) as [[? ?] ?]
  end.

Ltac norm_alloc :=
  rewrite ?length_app in *; cbn [length] in *; rewrite ?Nat.add_1_r in *;
  rewrite <- ?app_assoc in *; cbn [app] in *.

(** The run of [Optimize] up to a successful [build]: what is left is the
    choice of line 48, taken in the world [build] left behind. *)
Lemma Optimize_after_build :
  forall ctx node sb ischema s w1 w2 p w3,
    InferType node (world s) = (None, w1) ->
    (if runs_logicOptimize node
     then logicOptimize ctx node w1 else (None, w1)) = (None, w2) ->
    build (builder_at (length (allocs s)) ctx sb ischema) node w2
      = ((p, None), w3) ->
    Optimize ctx node sb ischema s =
      let '(r, s', t) :=
        match asLogicalPlan p, UseNewPlanner with
        | Some logic, true => newPipeline p logic
        | _, _ => legacyRefine p
        end (mkStore w3
               (allocs s ++ [KColMapper; KIdAllocator; KPlanBuilder])) in
      (r, s', front_log (length (allocs s)) ctx node sb ischema ++ t).
Proof.
  intros ctx node sb ischema s w1 w2 p w3 Hinfer Hast Hbuild.
  unfold Optimize, front_log, builder_loc, builder_at, runs_logicOptimize,
    bind, call, ret, alloc, id in *.
  rewrite Hinfer. red_run.
  destruct (negb (isSelectStmt node) || negb UseNewPlanner); red_run;
    [ rewrite Hast | injection Hast as <- ];
    red_run; norm_alloc; rewrite Hbuild; red_run;
    destruct_tail p; reflexivity.
Qed.

(** C2. Whatever the input, a run of [Optimize] ends in one of two ways.
    Either it returns an error: then the plan it returns is nil, the error
    is [errors.Trace] of the error some step returned, that step is one of
    the seven fallible steps (type inference, legacy AST optimization, plan
    building, predicate pushdown, column pruning, physical conversion,
    refinement), it is the last call of the run (no later step ran) and
    every call before it succeeded.  Or it returns no error: then every
    call of the run succeeded and a plan is returned. *)
Theorem Optimize_first_failure :
  forall ctx node sb ischema s,
    let '(r, _, t) := Optimize ctx node sb ischema s in
    match snd r with
    | Some e' =>
        fst r = None /\
        exists t0 c e,
          t = t0 ++ [(c, Some e)] /\ e' = Trace e /\
          fallible_step c = true /\ Forall succeeded t0
    | None =>
        Forall succeeded t /\ exists p, fst r = Some p
    end.
Proof.
  intros ctx node sb ischema s. unfold_run.
  repeat case_step;
    try (split; [ reflexivity | last_event;
                  repeat split; repeat constructor ]);
    try (split; [ repeat constructor | eexists; reflexivity ]).
Qed.

(** C1. On the new-pipeline path (the toggle is on, the front end
    succeeded and the built plan [p] is a logical plan [logic]), when
    every pass succeeds, [Optimize] calls, in this order and nothing else
    after [build]: [PredicatePushDown] on [logic] with no predicates
    (nil); [PruneColumnsAndResolveIndices] on the plan pushdown returned,
    with the schema [p.GetSchema()] of the built plan [p], read at that
    point; [convert2PhysicalPlan] with no required property (nil);
    [PushLimit], with a nil limit, on the physical plan chosen; the debug
    log of the result.  It returns the result of [PushLimit], and no
    error. *)
Theorem Optimize_new_pipeline_sequence :
  forall ctx node sb ischema s w1 w2 p w3 logic logic' w4 w5 res w6 q w7,
    UseNewPlanner = true ->
    InferType node (world s) = (None, w1) ->
    (if runs_logicOptimize node
     then logicOptimize ctx node w1 else (None, w1)) = (None, w2) ->
    build (builder_at (length (allocs s)) ctx sb ischema) node w2
      = ((p, None), w3) ->
    asLogicalPlan p = Some logic ->
    PredicatePushDown logic [] w3 = ((logic', None), w4) ->
    PruneColumnsAndResolveIndices logic' (GetSchema p w4) w4 = (None, w5) ->
    convert2PhysicalPlan logic' None w5 = ((res, None), w6) ->
    PushLimit (info_p res) None w6 = (q, w7) ->
    Optimize ctx node sb ischema s =
      ((Some (PhysicalPlan_as_Plan q), None),
       mkStore w7 (allocs s ++ [KColMapper; KIdAllocator; KPlanBuilder]),
       front_log (length (allocs s)) ctx node sb ischema
       ++ [ (CallPredicatePushDown logic [], None);
            (CallPruneColumnsAndResolveIndices logic' (GetSchema p w4), None);
            (CallConvert2PhysicalPlan logic' None, None);
            (CallPushLimit (info_p res) None, None);
            (CallDebugf (PhysicalPlan_as_Plan q), None) ]).
Proof.
  intros ctx node sb ischema s w1 w2 p w3 logic logic' w4 w5 res w6 q w7
    Hon Hinfer Hast Hbuild Hlogic Hpush Hprune Hconv Hlimit.
  erewrite Optimize_after_build by eassumption.
  rewrite Hlogic, Hon.
  unfold newPipeline, bind, call, ret, gets, no_error, id. red_run.
  rewrite Hpush. red_run. rewrite Hprune. red_run.
  rewrite Hconv. red_run. rewrite Hlimit. reflexivity.
Qed.

(** Closes a goal about a log whose spine is known. *)
Ltac read_log :=
  unfold invoked, calls, locs_of, is_new_pipeline in *;
  cbn [map existsb flat_map builder_locs fst snd app orb andb negb
       is_logicOptimize is_build is_PredicatePushDown
       is_PruneColumnsAndResolveIndices is_convert2PhysicalPlan
       is_PushLimit is_Refine] in *.

(** C3. With the toggle off, no run of [Optimize] calls
    [PredicatePushDown], [PruneColumnsAndResolveIndices] or
    [convert2PhysicalPlan]; and once the front end has built the plan [p],
    [Optimize] applies [Refine] to [p] as its last step and returns [p]
    itself, with no error, when [Refine] succeeds (the traced error of
    [Refine], and no plan, when it fails). *)
Theorem Optimize_legacy_branch :
  forall ctx node sb ischema s,
    UseNewPlanner = false ->
    (let '(_, _, t) := Optimize ctx node sb ischema s in
     invoked is_PredicatePushDown t = false /\
     invoked is_PruneColumnsAndResolveIndices t = false /\
     invoked is_convert2PhysicalPlan t = false) /\
    (forall w1 w2 p w3 err w4,
        InferType node (world s) = (None, w1) ->
        logicOptimize ctx node w1 = (None, w2) ->
        build (builder_at (length (allocs s)) ctx sb ischema) node w2
          = ((p, None), w3) ->
        Refine p w3 = (err, w4) ->
        Optimize ctx node sb ischema s =
          (match err with
           | Some e => (None, Some (Trace e))
           | None => (Some p, None)
           end,
           mkStore w4 (allocs s ++ [KColMapper; KIdAllocator; KPlanBuilder]),
           [ (CallInferType node, None);
             (CallLogicOptimize ctx node, None);
             (CallBuild (builder_loc (length (allocs s)))
                (builder_at (length (allocs s)) ctx sb ischema) node, None);
             (CallRefine p, err) ])).
Proof.
  intros ctx node sb ischema s Hoff. split.
  - unfold_run. rewrite Hoff.
    repeat case_step; read_log; auto.
  - intros w1 w2 p w3 err w4 Hinfer Hast Hbuild Hrefine.
    assert (Hruns : runs_logicOptimize node = true)
      by (unfold runs_logicOptimize; rewrite Hoff; apply orb_true_r).
    erewrite Optimize_after_build; try eassumption;
      [ | rewrite Hruns; eassumption ].
    unfold front_log. rewrite Hruns, Hoff.
    assert (Hleg : legacyRefine p
              (mkStore w3
                 (allocs s ++ [KColMapper; KIdAllocator; KPlanBuilder]))
            = (match err with
               | Some e => (None, Some (Trace e))
               | None => (Some p, None)
               end,
               mkStore w4
                 (allocs s ++ [KColMapper; KIdAllocator; KPlanBuilder]),
               [(CallRefine p, err)])).
    { unfold legacyRefine, bind, call, ret, id. red_run.
      rewrite Hrefine. destruct err; reflexivity. }
    destruct (asLogicalPlan p); rewrite Hleg; reflexivity.
Qed.

(** C4. [logicOptimize] is called only when the statement is not a SELECT
    or the toggle is off.  Once type inference has succeeded it is called
    exactly when that condition holds: the calls of the run are
    [InferType], then [logicOptimize] on the statement tree if the
    condition holds, then the rest, in which [logicOptimize] is not called
    again and in which any call of the builder lies. *)
Theorem Optimize_logicOptimize_iff :
  forall ctx node sb ischema s,
    let '(_, _, t) := Optimize ctx node sb ischema s in
    (invoked is_logicOptimize t = true -> runs_logicOptimize node = true) /\
    (fst (InferType node (world s)) = None ->
     exists rest,
       calls t =
         CallInferType node
         :: (if runs_logicOptimize node
             then [CallLogicOptimize ctx node] else [])
         ++ rest /\
       existsb is_logicOptimize rest = false /\
       existsb is_build rest = invoked is_build t).
Proof.
  intros ctx node sb ischema s. unfold runs_logicOptimize. unfold_run.
  repeat case_step; read_log;
    (split;
     [ auto; try discriminate
     | first [ discriminate
             | intros _; eexists; split;
               [ reflexivity | split; reflexivity ] ] ]).
Qed.

(** C5. In no run of [Optimize] are [Refine] and [convert2PhysicalPlan]
    both called; more generally no run calls both [Refine] and a pass of
    the new-pipeline phase: once that phase has started the run returns
    from inside it, and [Refine] is reached only when it was skipped. *)
Theorem Optimize_Refine_excludes_new_pipeline :
  forall ctx node sb ischema s,
    let '(_, _, t) := Optimize ctx node sb ischema s in
    invoked is_Refine t && invoked is_convert2PhysicalPlan t = false /\
    invoked is_Refine t && invoked is_new_pipeline t = false.
Proof.
  intros ctx node sb ischema s. unfold_run.
  repeat case_step; read_log; split; reflexivity.
Qed.

(** What one run allocates, and the only builder call it can make. *)
Lemma Optimize_builder_calls :
  forall ctx node sb ischema s,
    let n := length (allocs s) in
    let '(_, s', t) := Optimize ctx node sb ischema s in
    Forall (fun c =>
              is_build c = true ->
              c = CallBuild (builder_loc n) (builder_at n ctx sb ischema) node
              /\ allocs s' = allocs s ++ [KColMapper; KIdAllocator; KPlanBuilder])
           (calls t) /\
    ((locs_of t = [] /\ allocs s' = allocs s) \/
     (locs_of t = [n; S n; S (S n)] /\
      allocs s' = allocs s ++ [KColMapper; KIdAllocator; KPlanBuilder])).
Proof.
  intros ctx node sb ischema s. unfold builder_loc, builder_at. unfold_run.
  repeat case_step; read_log; norm_alloc;
    (split; [ repeat constructor; cbn; intros; try discriminate;
              split; reflexivity
            | first [ left; split; reflexivity
                    | right; split; reflexivity ] ]).
Qed.

Lemma nth_error_fresh :
  forall (l : list AllocKind) k1 k2 k3 i k,
    nth_error [k1; k2; k3] i = Some k ->
    nth_error (l ++ [k1; k2; k3]) (length l + i) = Some k /\
    nth_error l (length l + i) = None.
Proof.
  intros l k1 k2 k3 i k H. split.
  - rewrite nth_error_app2 by lia.
    replace (length l + i - length l) with i by lia. exact H.
  - apply nth_error_None. lia.
Qed.

(** C7. The builder of a run of [Optimize] is made in that run: the call
    of [build] receives a builder at an address, holding a [colMapper] and
    an [allocator] at addresses, that were all free when the run started
    and that the run allocated as a plan builder, a column map and an
    identifier allocator; the three addresses are distinct.  A run that
    gets past type inference and the AST pass makes that call.  And the
    addresses of the builder of one run are none of the addresses of the
    builder of any run that starts later. *)
Theorem Optimize_fresh_builder :
  forall ctx1 node1 sb1 is1 s1 ctx2 node2 sb2 is2 s2,
    let '(_, s1', t1) := Optimize ctx1 node1 sb1 is1 s1 in
    let '(_, _, t2) := Optimize ctx2 node2 sb2 is2 s2 in
    (forall bp b n,
        In (CallBuild bp b n) (calls t1) ->
        (nth_error (allocs s1) (colMapper b) = None /\
         nth_error (allocs s1) (allocator b) = None /\
         nth_error (allocs s1) bp = None) /\
        (nth_error (allocs s1') (colMapper b) = Some KColMapper /\
         nth_error (allocs s1') (allocator b) = Some KIdAllocator /\
         nth_error (allocs s1') bp = Some KPlanBuilder) /\
        locs_of t1 = [colMapper b; allocator b; bp]) /\
    List.NoDup (locs_of t1) /\
    (forall w1 w2,
        InferType node1 (world s1) = (None, w1) ->
        (if runs_logicOptimize node1
         then logicOptimize ctx1 node1 w1 else (None, w1)) = (None, w2) ->
        invoked is_build t1 = true) /\
    (length (allocs s1') <= length (allocs s2) ->
     forall l, In l (locs_of t1) -> ~ In l (locs_of t2)).
Proof.
  intros ctx1 node1 sb1 is1 s1 ctx2 node2 sb2 is2 s2.
  pose proof (Optimize_builder_calls ctx1 node1 sb1 is1 s1) as H1.
  pose proof (Optimize_builder_calls ctx2 node2 sb2 is2 s2) as H2.
  cbv zeta in H1, H2.
  assert (Hreach : forall w1 w2,
             InferType node1 (world s1) = (None, w1) ->
             (if runs_logicOptimize node1
              then logicOptimize ctx1 node1 w1 else (None, w1)) = (None, w2) ->
             invoked is_build (snd (Optimize ctx1 node1 sb1 is1 s1)) = true).
  { intros w1 w2 Hinfer Hast.
    destruct (build (builder_at (length (allocs s1)) ctx1 sb1 is1) node1 w2)
      as [[p [e|]] w3] eqn:Hbuild.
    - revert Hast. unfold runs_logicOptimize, builder_at in *. unfold_run.
      rewrite Hinfer. red_run.
      destruct (negb (isSelectStmt node1) || negb UseNewPlanner); red_run;
        intros Hast; [ rewrite Hast | injection Hast as <- ];
        red_run; norm_alloc; rewrite Hbuild; reflexivity.
    - erewrite Optimize_after_build by eassumption.
      destruct_tail p; unfold front_log;
        destruct (runs_logicOptimize node1); reflexivity. }
  destruct (Optimize ctx1 node1 sb1 is1 s1) as [[r1 s1'] t1].
  destruct (Optimize ctx2 node2 sb2 is2 s2) as [[r2 s2'] t2].
  destruct H1 as (Hb1 & Hl1). destruct H2 as (_ & Hl2).
  rewrite List.Forall_forall in Hb1.
  split; [ | split; [ | split ] ].
  - intros bp b n Hin.
    destruct (Hb1 _ Hin eq_refl) as [Hc Ha].
    injection Hc as -> -> ->. rewrite Ha.
    unfold builder_loc. cbn [colMapper allocator builder_at].
    pose proof (@nth_error_fresh (allocs s1) KColMapper KIdAllocator
                  KPlanBuilder 0 KColMapper eq_refl) as [F0 G0].
    pose proof (@nth_error_fresh (allocs s1) KColMapper KIdAllocator
                  KPlanBuilder 1 KIdAllocator eq_refl) as [F1 G1].
    pose proof (@nth_error_fresh (allocs s1) KColMapper KIdAllocator
                  KPlanBuilder 2 KPlanBuilder eq_refl) as [F2 G2].
    rewrite Nat.add_0_r in F0, G0. rewrite Nat.add_1_r in F1, G1.
    replace (length (allocs s1) + 2) with (S (S (length (allocs s1))))
      in F2, G2 by lia.
    repeat split; try assumption.
    destruct Hl1 as [[Hl1 _] | [Hl1 _]]; [ | exact Hl1 ].
    exfalso. unfold locs_of in Hl1.
    apply in_split in Hin as (l1 & l2 & Heq).
    rewrite Heq, flat_map_app in Hl1. cbn in Hl1.
    destruct (flat_map _ l1); discriminate.
  - destruct Hl1 as [[-> _] | [-> _]]; repeat constructor; cbn; lia.
  - exact Hreach.
  - intros Hle l Hin1 Hin2.
    destruct Hl1 as [[Hl1 _] | [Hl1 Ha1]]; rewrite Hl1 in *;
      [ contradiction | ].
    destruct Hl2 as [[Hl2 _] | [Hl2 _]]; rewrite Hl2 in *;
      [ contradiction | ].
    rewrite Ha1, length_app in Hle. cbn in Hle, Hin1, Hin2. lia.
Qed.

(** C8. Once the builder has returned a plan [p] without error, the
    new-pipeline phase runs exactly when the toggle is on and [p]
    implements [LogicalPlan], and [Refine] runs exactly otherwise; the
    statement kind plays no part.  So, with the toggle on, a statement
    that is not a SELECT and whose plan implements [LogicalPlan] goes
    through [logicOptimize] and through the new pipeline, not through
    [Refine]; and a SELECT whose plan does not implement [LogicalPlan]
    goes to [Refine] without [logicOptimize]. *)
Theorem Optimize_branch_on_plan_type :
  forall ctx node sb ischema s w1 w2 p w3,
    InferType node (world s) = (None, w1) ->
    (if runs_logicOptimize node
     then logicOptimize ctx node w1 else (None, w1)) = (None, w2) ->
    build (builder_at (length (allocs s)) ctx sb ischema) node w2
      = ((p, None), w3) ->
    let '(_, _, t) := Optimize ctx node sb ischema s in
    invoked is_PredicatePushDown t
      = UseNewPlanner && implementsLogicalPlan p /\
    invoked is_new_pipeline t = UseNewPlanner && implementsLogicalPlan p /\
    invoked is_Refine t = negb (UseNewPlanner && implementsLogicalPlan p) /\
    (UseNewPlanner = true -> isSelectStmt node = false ->
     forall logic, asLogicalPlan p = Some logic ->
       invoked is_logicOptimize t = true /\
       In (CallPredicatePushDown logic []) (calls t) /\
       invoked is_Refine t = false) /\
    (UseNewPlanner = true -> isSelectStmt node = true ->
     asLogicalPlan p = None ->
       calls t =
         [ CallInferType node;
           CallBuild (builder_loc (length (allocs s)))
             (builder_at (length (allocs s)) ctx sb ischema) node;
           CallRefine p ]).
Proof.
  intros ctx node sb ischema s w1 w2 p w3 Hinfer Hast Hbuild.
  erewrite Optimize_after_build by eassumption.
  unfold front_log, runs_logicOptimize, implementsLogicalPlan.
  unfold newPipeline, legacyRefine, bind, call, ret, gets, no_error, id.
  destruct (asLogicalPlan p) as [logic|]; destruct UseNewPlanner;
    destruct (isSelectStmt node); red_run;
    repeat case_step; read_log;
    repeat split; try reflexivity; try discriminate;
    intros; repeat split; try reflexivity;
    match goal with
    | H : Some _ = Some _ |- _ => injection H as <-; cbn; auto
    end.
Qed.

(** C10. [PrepareStmt] first sets the AST flags, then runs [Preprocess]
    in the world that leaves, and runs [Validate] (in prepare mode) only
    if [Preprocess] succeeded.  It returns [errors.Trace] of the error of
    the first of the two that fails, that failing call being the last of
    the run, and returns nil exactly when [Preprocess] and then
    [Validate] both returned no error. *)
Theorem PrepareStmt_short_circuit :
  forall ischema ctx node s,
    let w0 := SetFlag node (world s) in
    let '(e1, w1) := Preprocess node ischema ctx w0 in
    let '(e2, w2) := Validate node true w1 in
    PrepareStmt ischema ctx node s =
      match e1, e2 with
      | Some e, _ =>
          (Some (Trace e), mkStore w1 (allocs s),
           [ (CallSetFlag node, None);
             (CallPreprocess node ischema ctx, Some e) ])
      | None, Some e =>
          (Some (Trace e), mkStore w2 (allocs s),
           [ (CallSetFlag node, None);
             (CallPreprocess node ischema ctx, None);
             (CallValidate node true, Some e) ])
      | None, None =>
          (None, mkStore w2 (allocs s),
           [ (CallSetFlag node, None);
             (CallPreprocess node ischema ctx, None);
             (CallValidate node true, None) ])
      end /\
    (fst (fst (PrepareStmt ischema ctx node s)) = None <->
     e1 = None /\ e2 = None).
Proof.
  intros ischema ctx node s. unfold_run. red_run.
  destruct (Preprocess node ischema ctx (SetFlag node (world s)))
    as [[e1|] w1]; red_run.
  - destruct (Validate node true w1) as [e2 w2].
    split; [ reflexivity | ].
    split; [ discriminate | intros [? _]; discriminate ].
  - destruct (Validate node true w1) as [[e2|] w2]; red_run;
      (split; [ reflexivity | ]);
      (split; [ try discriminate; auto | intros [_ ?]; try discriminate; auto ]).
Qed.


(** ** Further properties of [Optimize] *)

(** X1. The calls of a run follow the text of [Optimize]: their stages
    are strictly increasing, so no pass runs twice and none runs before
    a pass written above it; and [Optimize] never calls [ast.SetFlag],
    [Preprocess] or [Validate]. *)
Theorem Optimize_calls_in_stage_order :
  forall ctx node sb ischema s,
    let '(_, _, t) := Optimize ctx node sb ischema s in
    StronglySorted lt (map stage (calls t)) /\
    Forall (fun c => 1 <= stage c) (calls t).
Proof.
  intros ctx node sb ischema s. unfold_run.
  repeat case_step; unfold calls; cbn [map fst stage];
    split; repeat constructor.
Qed.

(** X2. Whatever the toggle, the statement kind and the outcome, a run
    starts by inferring the types of the statement it was given: the
    first logged call is [InferType(node)], with the error it returned. *)
Theorem Optimize_infers_types_first :
  forall ctx node sb ischema s,
    let '(_, _, t) := Optimize ctx node sb ischema s in
    exists rest,
      t = (CallInferType node, fst (InferType node (world s))) :: rest.
Proof.
  intros ctx node sb ischema s. unfold_run.
  repeat case_step; eexists; reflexivity.
Qed.

(** X3. A run allocates only to make its builder: it leaves the
    allocation log as it found it when it returns before line 38 (no
    builder call is logged), and extended by exactly a column map, an
    identifier allocator and a plan builder otherwise, whether the
    builder and the later passes succeed or not. *)
Theorem Optimize_allocates_for_builder_only :
  forall ctx node sb ischema s,
    let '(_, s', t) := Optimize ctx node sb ischema s in
    allocs s' =
      allocs s ++ (if invoked is_build t
                   then [KColMapper; KIdAllocator; KPlanBuilder]
                   else []).
Proof.
  intros ctx node sb ischema s. unfold_run.
  repeat case_step; read_log; try discriminate; norm_alloc;
    rewrite ?app_nil_r; reflexivity.
Qed.

(** X4. The builder [Optimize] hands to [build] is made from the caller's
    arguments: any logged builder call is on the caller's statement, with
    a builder holding the caller's subquery builder, context and
    information schema. *)
Theorem Optimize_builder_holds_arguments :
  forall ctx node sb ischema s bp b n,
    In (CallBuild bp b n) (calls (snd (Optimize ctx node sb ischema s))) ->
    n = node /\ pb_sb b = sb /\ pb_ctx b = ctx /\ pb_is b = ischema.
Proof.
  intros ctx node sb ischema s bp b n Hin.
  pose proof (Optimize_builder_calls ctx node sb ischema s) as H.
  cbv zeta in H.
  destruct (Optimize ctx node sb ischema s) as [[r s'] t].
  destruct H as [Hb _]. rewrite List.Forall_forall in Hb.
  destruct (Hb _ Hin eq_refl) as [Hc _].
  injection Hc as -> -> ->. repeat split.
Qed.

(** X5. Whatever the toggle, a built plan that does not go down the new
    pipeline (the toggle is off, or the plan does not implement
    [LogicalPlan]) is refined in place: [Refine] is the one call after
    the builder, and the plan returned on success is the plan the builder
    returned. *)
Theorem Optimize_refines_built_plan :
  forall ctx node sb ischema s w1 w2 p w3 err w4,
    InferType node (world s) = (None, w1) ->
    (if runs_logicOptimize node
     then logicOptimize ctx node w1 else (None, w1)) = (None, w2) ->
    build (builder_at (length (allocs s)) ctx sb ischema) node w2
      = ((p, None), w3) ->
    UseNewPlanner && implementsLogicalPlan p = false ->
    Refine p w3 = (err, w4) ->
    Optimize ctx node sb ischema s =
      (match err with
       | Some e => (None, Some (Trace e))
       | None => (Some p, None)
       end,
       mkStore w4 (allocs s ++ [KColMapper; KIdAllocator; KPlanBuilder]),
       front_log (length (allocs s)) ctx node sb ischema
       ++ [(CallRefine p, err)]).
Proof.
  intros ctx node sb ischema s w1 w2 p w3 err w4
    Hinfer Hast Hbuild Hleg Hrefine.
  erewrite Optimize_after_build by eassumption.
  assert (Hrun : legacyRefine p
            (mkStore w3
               (allocs s ++ [KColMapper; KIdAllocator; KPlanBuilder]))
          = (match err with
             | Some e => (None, Some (Trace e))
             | None => (Some p, None)
             end,
             mkStore w4
               (allocs s ++ [KColMapper; KIdAllocator; KPlanBuilder]),
             [(CallRefine p, err)])).
  { unfold legacyRefine, bind, call, ret, id. red_run.
    rewrite Hrefine. destruct err; reflexivity. }
  unfold implementsLogicalPlan in Hleg.
  destruct (asLogicalPlan p); destruct UseNewPlanner;
    try discriminate; rewrite Hrun; reflexivity.
Qed.

(** X6. The plan is logged only once it is final: [log.Debugf] runs in
    exactly the runs in which [PushLimit] ran, and the plan it prints is
    the plan the run returns, with a nil error. *)
Theorem Optimize_logs_returned_plan :
  forall ctx node sb ischema s,
    let '(r, _, t) := Optimize ctx node sb ischema s in
    invoked is_Debugf t = invoked is_PushLimit t /\
    (forall p, In (CallDebugf p) (calls t) -> r = (Some p, None)).
Proof.
  intros ctx node sb ischema s. unfold_run.
  repeat case_step; unfold invoked, calls;
    cbn [map existsb fst orb is_Debugf is_PushLimit];
    (split; [ reflexivity | ]);
    intros plan Hin; cbn [In] in Hin;
    repeat (destruct Hin as [Hin | Hin]; try discriminate);
    try contradiction; injection Hin as <-; reflexivity.
Qed.

(** X7. The passes of the new pipeline are never skipped: a run that
    calls [PushLimit] has called [convert2PhysicalPlan], a run that calls
    that has called [PruneColumnsAndResolveIndices], a run that calls that
    has called [PredicatePushDown]; and [PredicatePushDown] and [Refine]
    alike run only after the builder. *)
Theorem Optimize_skips_no_pass :
  forall ctx node sb ischema s,
    let '(_, _, t) := Optimize ctx node sb ischema s in
    implb (invoked is_PushLimit t) (invoked is_convert2PhysicalPlan t)
      = true /\
    implb (invoked is_convert2PhysicalPlan t)
          (invoked is_PruneColumnsAndResolveIndices t) = true /\
    implb (invoked is_PruneColumnsAndResolveIndices t)
          (invoked is_PredicatePushDown t) = true /\
    implb (invoked is_PredicatePushDown t || invoked is_Refine t)
          (invoked is_build t) = true.
Proof.
  intros ctx node sb ischema s. unfold_run.
  repeat case_step; read_log; repeat split; reflexivity.
Qed.

(** X8. For a statement that is not a SELECT and that the builder never
    turns into a plan implementing [LogicalPlan], the toggle makes no
    difference: with it on or off, [Optimize] makes the same calls,
    leaves the same store and returns the same result. *)
Theorem Optimize_toggle_irrelevant :
  forall ctx node sb ischema s,
    isSelectStmt node = false ->
    (forall b w, asLogicalPlan (fst (fst (build b node w))) = None) ->
    Optimize (C := with_toggle true C) ctx node sb ischema s =
    Optimize (C := with_toggle false C) ctx node sb ischema s.
Proof.
  intros ctx node sb ischema s Hsel Hplan.
  destruct C as [tg sel asl up tr infer lopt bld ppd gs prune conv pl
                 refine sf prep val].
  cbn [isSelectStmt asLogicalPlan build] in Hsel, Hplan.
  unfold Optimize, legacyRefine, bind, call, ret, alloc, id, with_toggle.
  cbn [UseNewPlanner isSelectStmt asLogicalPlan InferType logicOptimize
       build Trace Refine].
  rewrite Hsel. cbn [negb orb].
  destruct (infer node (world s)) as [[e|] w1]; [ reflexivity | ].
  red_run.
  destruct (lopt ctx node w1) as [[e|] w2]; [ reflexivity | ].
  red_run.
  match goal with
  | |- context [bld ?b node w2] =>
      pose proof (Hplan b w2) as Hp;
      destruct (bld b node w2) as [[p [e|]] w3]
  end; [ reflexivity | ].
  cbn [fst snd] in Hp. red_run. rewrite Hp. reflexivity.
Qed.

End OptimizerFacts.

(** * Properties of the error table *)

Section ErrorCodeFacts.

Local Open Scope Z_scope.

Context {T : terror.Classes} {K : mysql.Codes}.

Lemma entry_init :
  forall (tbl : gmap Z (gmap Z Z)) (c : Z) (msg : string),
    entry (init tbl) (terror.New terror.ClassOptimizer c msg) = mySQLErrCodes !! c.
Proof.
  intros tbl c msg. unfold entry, init, terror.New. cbn [terror.class terror.code].
  rewrite lookup_insert_eq. reflexivity.
Qed.

(** C6, as amended. Five of the six optimizer errors have an entry in the
    table once [init] has run -- [OneColumn], [SameColumns],
    [MultiWildCard], [InvalidGroupFuncUse] and [IllegalReference] --
    and [Unsupported] has none. *)
Theorem init_maps_five_categories :
  forall tbl : gmap Z (gmap Z Z),
    entry (init tbl) ErrOneColumn = Some mysql.ErrOperandColumns /\
    entry (init tbl) ErrSameColumns = Some mysql.ErrOperandColumns /\
    entry (init tbl) ErrMultiWildCard = Some mysql.ErrParse /\
    entry (init tbl) ErrInvalidGroupFuncUse = Some mysql.ErrInvalidGroupFuncUse /\
    entry (init tbl) ErrIllegalReference = Some mysql.ErrIllegalReference /\
    entry (init tbl) ErrUnSupported = None.
Proof.
  intros tbl.
  unfold ErrOneColumn, ErrSameColumns, ErrMultiWildCard, ErrUnSupported,
    ErrInvalidGroupFuncUse, ErrIllegalReference.
  rewrite !entry_init. repeat split; reflexivity.
Qed.

(** C9. The table of the optimizer class is not injective and is partial:
    [CodeOneColumn] and [CodeSameColumns], two different codes, both map
    to [mysql.ErrOperandColumns]; [CodeMultiWildCard] maps to
    [mysql.ErrParse]; [CodeUnsupported] has no entry: the table holds the
    five other codes and nothing else. *)
Theorem mySQLErrCodes_not_injective_partial :
  forall tbl : gmap Z (gmap Z Z),
    init tbl !! terror.ClassOptimizer = Some mySQLErrCodes /\
    mySQLErrCodes !! CodeOneColumn = Some mysql.ErrOperandColumns /\
    mySQLErrCodes !! CodeSameColumns = Some mysql.ErrOperandColumns /\
    (CodeOneColumn =? CodeSameColumns) = false /\
    mySQLErrCodes !! CodeMultiWildCard = Some mysql.ErrParse /\
    mySQLErrCodes !! CodeUnsupported = None /\
    dom mySQLErrCodes =
      ({[ CodeOneColumn; CodeSameColumns; CodeMultiWildCard;
          CodeInvalidGroupFuncUse; CodeIllegalReference ]} : gset Z).
Proof.
  intros tbl. split; [ apply lookup_insert_eq | ].
  repeat split; reflexivity.
Qed.


(** ** Further properties of the table *)

(** X9. [init] replaces the table of the optimizer class and touches
    nothing else: the table of every other class, and so the entry of
    every error of another class, is as before; whatever was recorded for
    the optimizer class before is discarded; and running [init] a second
    time changes nothing. *)
Theorem init_replaces_optimizer_table_only :
  forall tbl : gmap Z (gmap Z Z),
    (forall c, c <> terror.ClassOptimizer -> init tbl !! c = tbl !! c) /\
    (forall e, terror.class e <> terror.ClassOptimizer ->
               entry (init tbl) e = entry tbl e) /\
    (forall old, init (<[ terror.ClassOptimizer := old ]> tbl) = init tbl) /\
    init (init tbl) = init tbl.
Proof.
  intros tbl. unfold init, entry. repeat split.
  - intros c Hc. apply lookup_insert_ne. congruence.
  - intros e He. rewrite lookup_insert_ne by congruence. reflexivity.
  - intros old. apply insert_insert_eq.
  - apply insert_insert_eq.
Qed.

(** X10. The lookup of the optimizer's table, for every code: [1] and [2]
    give [mysql.ErrOperandColumns], [3] gives [mysql.ErrParse], [5] gives
    [mysql.ErrInvalidGroupFuncUse], [6] gives [mysql.ErrIllegalReference],
    and every other code -- [4], zero, a negative or a larger one -- has
    no entry. *)
Theorem mySQLErrCodes_lookup :
  forall c : Z,
    mySQLErrCodes !! c =
      match c with
      | 1 | 2 => Some mysql.ErrOperandColumns
      | 3 => Some mysql.ErrParse
      | 5 => Some mysql.ErrInvalidGroupFuncUse
      | 6 => Some mysql.ErrIllegalReference
      | _ => None
      end.
Proof.
  intros c.
  assert (Hdom : dom mySQLErrCodes = ({[ 1; 2; 3; 5; 6 ]} : gset Z))
    by reflexivity.
  destruct (mySQLErrCodes !! c) as [v|] eqn:Hc.
  - apply elem_of_dom_2 in Hc as Hin. rewrite Hdom in Hin.
    set_unfold in Hin.
    destruct Hin as [[[[Hin | Hin] | Hin] | Hin] | Hin]; subst c;
      rewrite <- Hc; reflexivity.
  - apply not_elem_of_dom in Hc. rewrite Hdom in Hc.
    assert (Hne : c <> 1 /\ c <> 2 /\ c <> 3 /\ c <> 5 /\ c <> 6)
      by set_solver.
    destruct Hne as (n1 & n2 & n3 & n5 & n6).
    destruct c as [|q|q]; try reflexivity.
    do 3 (try destruct q as [q|q|]); try reflexivity; congruence.
Qed.

End ErrorCodeFacts.

(** C6, as the claim has it, fails: with the numbers of MySQL for the four
    constants, the error [Unsupported] is one of the six and has no entry
    in the table [init] installs. *)
Lemma init_does_not_map_all_six :
  ~ (forall e,
        In e (optimizerErrors (T := Demo.classes)) ->
        is_Some (entry (init (T := Demo.classes) (K := Demo.codes) ∅) e)).
Proof.
  intros H.
  assert (Hin : In (ErrUnSupported (T := Demo.classes))
                   (optimizerErrors (T := Demo.classes)))
    by (cbn; tauto).
  apply H in Hin. destruct Hin as [v Hv].
  vm_compute in Hv. discriminate.
Qed.

(** * The theorems at work on the small instance *)

(** Column pruning fails on statement [3]: the run stops there and returns
    the traced error with a nil plan. *)
Lemma Optimize_first_failure_witness :
  Optimize (C := Demo.collaborators true 0 5) tt 3 tt tt Demo.store0 =
    ((None, Some 8),
     {| world := 5;
        allocs := [KPlanBuilder; KColMapper;
                   KColMapper; KIdAllocator; KPlanBuilder] |},
     [ (CallInferType 3, None);
       (CallLogicOptimize tt 3, None);
       (CallBuild 4 {| pb_sb := tt; pb_ctx := tt; pb_is := tt;
                       colMapper := 2; allocator := 3 |} 3, None);
       (CallPredicatePushDown 6 [], None);
       (CallPruneColumnsAndResolveIndices 16 10, Some 7) ]) /\
  fst (fst (fst (Optimize (C := Demo.collaborators true 0 5)
                   tt 3 tt tt Demo.store0))) = None.
Proof.
  destruct (Optimize_first_failure
              (C := Demo.collaborators true 0 5) tt 3 tt tt Demo.store0)
    as [Hnil _].
  split; [ reflexivity | exact Hnil ].
Defined.

(** With the toggle on, statement [3] (not a SELECT) is built into the
    logical plan [6] and goes down the new pipeline. *)
Lemma Optimize_new_pipeline_sequence_witness :
  Optimize (C := Demo.collaborators true 0 0) tt 3 tt tt Demo.store0 =
    ((Some 66, None),
     {| world := 7;
        allocs := [KPlanBuilder; KColMapper;
                   KColMapper; KIdAllocator; KPlanBuilder] |},
     [ (CallInferType 3, None);
       (CallLogicOptimize tt 3, None);
       (CallBuild 4 {| pb_sb := tt; pb_ctx := tt; pb_is := tt;
                       colMapper := 2; allocator := 3 |} 3, None);
       (CallPredicatePushDown 6 [], None);
       (CallPruneColumnsAndResolveIndices 16 10, None);
       (CallConvert2PhysicalPlan 16 None, None);
       (CallPushLimit 36 None, None);
       (CallDebugf 66, None) ]).
Proof.
  exact (Optimize_new_pipeline_sequence
           (C := Demo.collaborators true 0 0) tt 3 tt tt Demo.store0
           (w1 := 1) (w2 := 2) (p := 6) (w3 := 3) (logic := 6)
           (logic' := 16) (w4 := 4) (w5 := 5) (res := {| info_p := 36 |})
           (w6 := 6) (q := 66) (w7 := 7)
           eq_refl eq_refl eq_refl eq_refl eq_refl eq_refl eq_refl eq_refl
           eq_refl).
Defined.

(** With the toggle off, the SELECT statement [0] goes through
    [logicOptimize] and [Refine], and through no pass of the new
    pipeline, although its plan [0] is a logical plan. *)
Lemma Optimize_legacy_branch_witness :
  invoked is_PredicatePushDown
    (snd (Optimize (C := Demo.collaborators false 0 0) tt 0 tt tt Demo.store0))
    = false /\
  Optimize (C := Demo.collaborators false 0 0) tt 0 tt tt Demo.store0 =
    ((Some 0, None),
     {| world := 4;
        allocs := [KPlanBuilder; KColMapper;
                   KColMapper; KIdAllocator; KPlanBuilder] |},
     [ (CallInferType 0, None);
       (CallLogicOptimize tt 0, None);
       (CallBuild 4 {| pb_sb := tt; pb_ctx := tt; pb_is := tt;
                       colMapper := 2; allocator := 3 |} 0, None);
       (CallRefine 0, None) ]).
Proof.
  destruct (Optimize_legacy_branch
              (C := Demo.collaborators false 0 0) tt 0 tt tt Demo.store0
              eq_refl) as [[Hpush _] Hrun].
  split.
  - exact Hpush.
  - eapply (Hrun 1 2 0 3 None 4); reflexivity.
Defined.

(** Type inference succeeds on statement [3], which is not a SELECT:
    [logicOptimize] is the second call of the run. *)
Lemma Optimize_logicOptimize_iff_witness :
  runs_logicOptimize (C := Demo.collaborators true 0 0) 3 = true /\
  exists rest,
    calls (snd (Optimize (C := Demo.collaborators true 0 0)
                  tt 3 tt tt Demo.store0))
    = CallInferType 3 :: [CallLogicOptimize tt 3] ++ rest /\
    existsb is_logicOptimize rest = false /\
    existsb is_build rest = true.
Proof.
  destruct (Optimize_logicOptimize_iff
              (C := Demo.collaborators true 0 0) tt 3 tt tt Demo.store0)
    as [Honly Hiff].
  split.
  - exact (Honly eq_refl).
  - exact (Hiff eq_refl).
Defined.

(** Two runs, the second entered with the store the first one left: the
    builder of the first run sits at addresses [2], [3] and [4], free
    before it and of the right kinds after it, and the second run uses
    none of them. *)
Lemma Optimize_fresh_builder_witness :
  let b := {| pb_sb := tt; pb_ctx := tt; pb_is := tt;
              colMapper := 2; allocator := 3 |} in
  let store1 :=
    {| world := 7;
       allocs := [KPlanBuilder; KColMapper;
                  KColMapper; KIdAllocator; KPlanBuilder] |} in
  (nth_error (allocs Demo.store0) 2 = None /\
   nth_error (allocs store1) 2 = Some KColMapper /\
   nth_error (allocs store1) 3 = Some KIdAllocator /\
   nth_error (allocs store1) 4 = Some KPlanBuilder) /\
  invoked is_build
    (snd (Optimize (C := Demo.collaborators true 0 0) tt 3 tt tt Demo.store0))
    = true /\
  ~ In 3 (locs_of
            (snd (Optimize (C := Demo.collaborators true 0 0)
                    tt 0 tt tt store1))).
Proof.
  intros b store1.
  destruct (Optimize_fresh_builder
              (C := Demo.collaborators true 0 0)
              tt 3 tt tt Demo.store0 tt 0 tt tt store1)
    as (Hfresh & _ & Hreach & Hlater).
  destruct (Hfresh 4 b 3) as ((F2 & _ & _) & (G2 & G3 & G4) & _).
  { cbn. tauto. }
  split; [ | split ].
  - exact (conj F2 (conj G2 (conj G3 G4))).
  - exact (Hreach 1 2 eq_refl eq_refl).
  - apply Hlater.
    + cbn. lia.
    + cbn. tauto.
Defined.

(** Statement [3] is not a SELECT and its plan [6] implements
    [LogicalPlan]: with the toggle on it goes through [logicOptimize] and
    through the new pipeline, not through [Refine]. *)
Lemma Optimize_branch_on_plan_type_witness :
  let t := snd (Optimize (C := Demo.collaborators true 0 0)
                  tt 3 tt tt Demo.store0) in
  invoked is_logicOptimize t = true /\
  In (CallPredicatePushDown 6 []) (calls t) /\
  invoked is_Refine t = false.
Proof.
  intros t.
  destruct (Optimize_branch_on_plan_type
              (C := Demo.collaborators true 0 0) tt 3 tt tt Demo.store0
              (w1 := 1) (w2 := 2) (p := 6) (w3 := 3)
              eq_refl eq_refl eq_refl)
    as (_ & _ & _ & Hboth & _).
  exact (Hboth eq_refl eq_refl 6 eq_refl).
Defined.

(** Both checks pass on statement [0]: [PrepareStmt] returns nil. *)
Lemma PrepareStmt_short_circuit_witness :
  fst (fst (PrepareStmt (C := Demo.collaborators true 0 0)
              tt tt 0 Demo.store0)) = None.
Proof.
  destruct (PrepareStmt_short_circuit
              (C := Demo.collaborators true 0 0) tt tt 0 Demo.store0)
    as [_ [_ Hnil]].
  exact (Hnil (conj eq_refl eq_refl)).
Defined.

(** The builder of the run on statement [3] is on statement [3]. *)
Lemma Optimize_builder_holds_arguments_witness :
  In (CallBuild 4 {| pb_sb := tt; pb_ctx := tt; pb_is := tt;
                     colMapper := 2; allocator := 3 |} 3)
     (calls (snd (Optimize (C := Demo.collaborators true 0 0)
                    tt 3 tt tt Demo.store0))) /\
  3 = 3 /\ tt = tt /\ tt = tt /\ tt = tt.
Proof.
  assert (Hin : In (CallBuild 4 {| pb_sb := tt; pb_ctx := tt; pb_is := tt;
                                   colMapper := 2; allocator := 3 |} 3)
                   (calls (snd (Optimize (C := Demo.collaborators true 0 0)
                                  tt 3 tt tt Demo.store0))))
    by (cbn; tauto).
  split; [ exact Hin | ].
  exact (Optimize_builder_holds_arguments
           (C := Demo.collaborators true 0 0) tt 3 tt tt Demo.store0 _ _ _
           Hin).
Defined.

(** With the toggle on, the SELECT statement [0] built into plan [1],
    which is no logical plan, is refined and returned as it is. *)
Lemma Optimize_refines_built_plan_witness :
  Optimize (C := Demo.collaborators true 1 0) tt 0 tt tt Demo.store0 =
    ((Some 1, None),
     {| world := 3;
        allocs := [KPlanBuilder; KColMapper;
                   KColMapper; KIdAllocator; KPlanBuilder] |},
     [ (CallInferType 0, None);
       (CallBuild 4 {| pb_sb := tt; pb_ctx := tt; pb_is := tt;
                       colMapper := 2; allocator := 3 |} 0, None);
       (CallRefine 1, None) ]).
Proof.
  exact (Optimize_refines_built_plan
           (C := Demo.collaborators true 1 0) tt 0 tt tt Demo.store0
           (w1 := 1) (w2 := 1) (p := 1) (w3 := 2) (err := None) (w4 := 3)
           eq_refl eq_refl eq_refl eq_refl eq_refl).
Defined.

(** The run on statement [3] logs plan [66] and returns it. *)
Lemma Optimize_logs_returned_plan_witness :
  fst (fst (Optimize (C := Demo.collaborators true 0 0)
              tt 3 tt tt Demo.store0)) = (Some 66, None).
Proof.
  destruct (Optimize_logs_returned_plan
              (C := Demo.collaborators true 0 0) tt 3 tt tt Demo.store0)
    as [_ Hlog].
  apply Hlog. cbn. tauto.
Defined.

(** Statement [3] is no SELECT and, with [k = 1], the builder makes odd
    plans only, none of which is a logical plan. *)
Lemma Optimize_toggle_irrelevant_witness :
  Optimize (C := with_toggle true (Demo.collaborators true 1 0))
    tt 3 tt tt Demo.store0 =
  Optimize (C := with_toggle false (Demo.collaborators true 1 0))
    tt 3 tt tt Demo.store0.
Proof.
  apply (Optimize_toggle_irrelevant
           (C := Demo.collaborators true 1 0) tt 3 tt tt Demo.store0).
  - reflexivity.
  - intros b w. reflexivity.
Defined.

(** Class [11] is not the optimizer class [10]: [init] leaves its table,
    here absent, alone. *)
Lemma init_replaces_optimizer_table_only_witness :
  init (T := Demo.classes) (K := Demo.codes) ∅ !! 11%Z = None.
Proof.
  destruct (init_replaces_optimizer_table_only
              (T := Demo.classes) (K := Demo.codes) ∅) as [Hother _].
  rewrite (Hother 11%Z); [ reflexivity | discriminate ].
Defined.
